(** * Neolix_eduVehicleFactory: lifecycle of the Neolix EDU CAN bus stack

    A shallow embedding of
    [modules/canbus_vehicle/neolix_edu/neolix_edu_vehicle_factory.cc].

    The factory owns a CAN client, a message manager, a CAN receiver, a CAN
    sender and a vehicle controller, and drives them through
    Init / Start / Stop and a handful of per-tick methods.  The classes of
    these collaborators live in other files; here they are an interface
    ([Collaborators]) of state transformers over an abstract [World], and
    every method of the factory is a program in a small monad that threads
    the factory's members and the world, records each collaborator call
    together with what it returned, and distinguishes a normal return from
    the dereference of a null member. *)

From Stdlib Require Import List String.
Import ListNotations.
Open Scope string_scope.
Open Scope list_scope.

Set Implicit Arguments.

(** ** Plain data *)

(** [apollo::common::ErrorCode].  The factory only ever compares a result
    with [ErrorCode::OK]; every other enumerator is [NotOK] with its
    number. *)
Inductive ErrorCode : Type :=
| OK
| NotOK (code : nat).

Definition is_OK (e : ErrorCode) : bool :=
  match e with OK => true | NotOK _ => false end.

(** Severity of a line written through AINFO / AERROR / ADEBUG. *)
Inductive Severity : Type := INFO | ERROR | DEBUG.

Definition LogLine : Type := (Severity * string)%type.

(** Modelled from the spec: the messaging fabric ([cyber::Node],
    [cyber::Writer]) is not part of this file.  The spec gives it as
    "channel registration by topic name, write(snapshot)" with no failure
    result, so a node is known by its name and a writer by its node and the
    topic it was registered for. *)
Record Node : Type := mkNode { node_name : string }.

Record Writer : Type := mkWriter { writer_node : Node; writer_channel : string }.

(** The members of the factory that are pointers, for naming the one that
    was null when it was dereferenced. *)
Inductive Member : Type :=
| can_client_member
| vehicle_controller_member
| node_member
| chassis_detail_writer_member
| chassis_detail_sender_writer_member.

(** How a method ends: it returns to its caller, or it goes through a null
    pointer member (undefined behaviour in C++, the end of the run here). *)
Inductive Outcome (A : Type) : Type :=
| Returned (a : A)
| NullDereference (p : Member).

Arguments NullDereference {A} p.

(** ** The collaborators

    Everything the factory calls but does not define.  [World] holds the
    state of all collaborator objects, including the two members held by
    value ([can_receiver_], [can_sender_]); each operation is a function of
    the world that returns its C++ result and the new world.  A
    [std::unique_ptr] result is an [option]; the two [new] expressions of
    [CreateMessageManager] and [CreateVehicleController] are given the same
    type, so that the comparison of their result with [nullptr] in [Init]
    has both branches in the model (a superset of what operator new can
    do). *)
Class Collaborators : Type := {
  World : Type;

  (* protobuf messages *)
  CANCardParameter : Type;
  VehicleParameter : Type;
  ControlCommand : Type;
  ChassisCommand : Type;
  Neolix_edu : Type;
  Chassis : Type;
  DrivingMode : Type;
  VehicleParameter_ShortDebugString : VehicleParameter -> string;
  Chassis_ShortDebugString : Chassis -> string;
  Neolix_edu_ShortDebugString : Neolix_edu -> string;

  (* objects held through a pointer *)
  CanClient : Type;
  MessageManager : Type;
  VehicleController : Type;

  (* gflags *)
  FLAGS_chassis_detail_topic : string;
  FLAGS_chassis_detail_sender_topic : string;

  (* CanClientFactory and CanClient *)
  CanClientFactory_RegisterCanClients : World -> World;
  CanClientFactory_CreateCANClient :
    CANCardParameter -> World -> option CanClient * World;
  CanClient_Start : CanClient -> World -> ErrorCode * World;
  CanClient_Stop : CanClient -> World -> World;

  (* new neolix_edu::Neolix_eduMessageManager() *)
  new_Neolix_eduMessageManager : World -> option MessageManager * World;

  (* CanReceiver, the member can_receiver_ *)
  CanReceiver_Init :
    CanClient -> MessageManager -> bool -> World -> ErrorCode * World;
  CanReceiver_Start : World -> ErrorCode * World;
  CanReceiver_Stop : World -> World;

  (* CanSender, the member can_sender_ *)
  CanSender_Init :
    CanClient -> MessageManager -> bool -> World -> ErrorCode * World;
  CanSender_Start : World -> ErrorCode * World;
  CanSender_Stop : World -> World;
  CanSender_Update : World -> World;
  CanSender_Update_Heartbeat : World -> World;
  CanSender_ClearMessage : World -> World;
  CanSender_IsMessageClear : World -> bool * World;

  (* new neolix_edu::Neolix_eduController() and VehicleController; the
     &can_sender_ argument of Init is the one sender of the world *)
  new_Neolix_eduController : World -> option VehicleController * World;
  VehicleController_Init :
    VehicleController -> VehicleParameter -> MessageManager ->
    World -> ErrorCode * World;
  VehicleController_Start : VehicleController -> World -> bool * World;
  VehicleController_Stop : VehicleController -> World -> World;
  VehicleController_Update_ControlCommand :
    VehicleController -> ControlCommand -> World -> ErrorCode * World;
  VehicleController_Update_ChassisCommand :
    VehicleController -> ChassisCommand -> World -> ErrorCode * World;
  VehicleController_chassis : VehicleController -> World -> Chassis * World;
  VehicleController_GetNewRecvChassisDetail :
    VehicleController -> World -> Neolix_edu * World;
  VehicleController_GetNewSenderChassisDetail :
    VehicleController -> World -> Neolix_edu * World;
  VehicleController_CheckChassisCommunicationError :
    VehicleController -> World -> bool * World;
  VehicleController_AddSendMessage : VehicleController -> World -> World;
  VehicleController_driving_mode :
    VehicleController -> World -> DrivingMode * World;

  (* cyber *)
  cyber_CreateNode : string -> World -> World;
  Node_CreateWriter : Node -> string -> World -> World;
  Writer_Write : Writer -> Neolix_edu -> World -> World
}.

Section Factory.

Context {C : Collaborators}.

(** [CanbusConf], the fields that the factory reads. *)
Record CanbusConf : Type := mkCanbusConf {
  can_card_parameter : CANCardParameter;
  vehicle_parameter : VehicleParameter;
  enable_receiver_log : bool;
  enable_sender_log : bool
}.

(** The pointer members of [Neolix_eduVehicleFactory]; [None] is a null
    pointer. *)
Record Neolix_eduVehicleFactory : Type := mkFactory {
  can_client_ : option CanClient;
  message_manager_ : option MessageManager;
  vehicle_controller_ : option VehicleController;
  node_ : option Node;
  chassis_detail_writer_ : option Writer;
  chassis_detail_sender_writer_ : option Writer
}.

(** A default-constructed factory. *)
Definition fresh_factory : Neolix_eduVehicleFactory :=
  mkFactory None None None None None None.

Record State : Type := mkState {
  self : Neolix_eduVehicleFactory;
  world : World
}.

(** One call of a collaborator, with the arguments that identify it and the
    result it gave. *)
Inductive Call : Type :=
| E_RegisterCanClients
| E_CreateCANClient (p : CANCardParameter) (r : option CanClient)
| E_new_MessageManager (r : option MessageManager)
| E_CanReceiver_Init (c : CanClient) (m : MessageManager) (log : bool)
    (r : ErrorCode)
| E_CanSender_Init (c : CanClient) (m : MessageManager) (log : bool)
    (r : ErrorCode)
| E_new_VehicleController (r : option VehicleController)
| E_VehicleController_Init (v : VehicleController) (p : VehicleParameter)
    (m : MessageManager) (r : ErrorCode)
| E_CreateNode (name : string)
| E_CreateWriter (n : Node) (topic : string)
| E_CanClient_Start (c : CanClient) (r : ErrorCode)
| E_CanReceiver_Start (r : ErrorCode)
| E_CanSender_Start (r : ErrorCode)
| E_VehicleController_Start (v : VehicleController) (r : bool)
| E_CanSender_Stop
| E_CanReceiver_Stop
| E_CanClient_Stop (c : CanClient)
| E_VehicleController_Stop (v : VehicleController)
| E_Update_ControlCommand (v : VehicleController) (cmd : ControlCommand)
    (r : ErrorCode)
| E_Update_ChassisCommand (v : VehicleController) (cmd : ChassisCommand)
    (r : ErrorCode)
| E_CanSender_Update
| E_CanSender_Update_Heartbeat
| E_CanSender_ClearMessage
| E_CanSender_IsMessageClear (r : bool)
| E_chassis (v : VehicleController) (r : Chassis)
| E_GetNewRecvChassisDetail (v : VehicleController) (r : Neolix_edu)
| E_GetNewSenderChassisDetail (v : VehicleController) (r : Neolix_edu)
| E_CheckChassisCommunicationError (v : VehicleController) (r : bool)
| E_AddSendMessage (v : VehicleController)
| E_driving_mode (v : VehicleController) (r : DrivingMode)
| E_Write (w : Writer) (msg : Neolix_edu).

(** ** The monad of factory methods *)

Record Run (A : Type) : Type := mkRun {
  outcome : Outcome A;
  final : State;
  calls : list Call;
  logs : list LogLine
}.

Definition M (A : Type) : Type := State -> Run A.

Definition ret {A} (a : A) : M A :=
  fun s => mkRun (Returned a) s [] [].

(** [r] with the calls and the log lines made before it put in front. *)
Definition prepend {A} (c : list Call) (l : list LogLine) (r : Run A)
  : Run A :=
  match r with
  | mkRun o s c' l' => mkRun o s (c ++ c') (l ++ l')
  end.

Definition bind {A B} (m : M A) (f : A -> M B) : M B :=
  fun s =>
    match m s with
    | mkRun (Returned a) s1 c1 l1 => prepend c1 l1 (f a s1)
    | mkRun (NullDereference p) s1 c1 l1 => mkRun (NullDereference p) s1 c1 l1
    end.

Notation "x <- m ;; k" := (bind m (fun x => k))
  (at level 100, m at next level, right associativity).
Notation "m ;; k" := (bind m (fun _ => k))
  (at level 100, right associativity).

(** A collaborator call that returns a value. *)
Definition call {A} (f : World -> A * World) (ev : A -> Call) : M A :=
  fun s =>
    let r := f (world s) in
    mkRun (Returned (fst r)) (mkState (self s) (snd r)) [ev (fst r)] [].

(** A collaborator call that returns [void]. *)
Definition call_void (f : World -> World) (ev : Call) : M unit :=
  fun s => mkRun (Returned tt) (mkState (self s) (f (world s))) [ev] [].

(** Reading and writing a member.  Writing a smart-pointer member also
    destroys the object it held before; what the destructors of the
    collaborators do is not part of this model. *)
Definition load {A} (field : Neolix_eduVehicleFactory -> A) : M A :=
  fun s => mkRun (Returned (field (self s))) s [] [].

Definition store (upd : Neolix_eduVehicleFactory -> Neolix_eduVehicleFactory)
  : M unit :=
  fun s => mkRun (Returned tt) (mkState (upd (self s)) (world s)) [] [].

(** [p->...]: the pointee of a member, or the fault of going through a null
    pointer. *)
Definition deref {A} (p : Member)
  (field : Neolix_eduVehicleFactory -> option A) : M A :=
  fun s =>
    match field (self s) with
    | Some a => mkRun (Returned a) s [] []
    | None => mkRun (NullDereference p) s [] []
    end.

Definition write_log (sev : Severity) (msg : string) : M unit :=
  fun s => mkRun (Returned tt) s [] [(sev, msg)].

Definition AINFO : string -> M unit := write_log INFO.
Definition AERROR : string -> M unit := write_log ERROR.
Definition ADEBUG : string -> M unit := write_log DEBUG.

Definition set_can_client_ (p : option CanClient) : M unit :=
  store (fun f => mkFactory p (message_manager_ f) (vehicle_controller_ f)
                    (node_ f) (chassis_detail_writer_ f)
                    (chassis_detail_sender_writer_ f)).

Definition set_message_manager_ (p : option MessageManager) : M unit :=
  store (fun f => mkFactory (can_client_ f) p (vehicle_controller_ f)
                    (node_ f) (chassis_detail_writer_ f)
                    (chassis_detail_sender_writer_ f)).

Definition set_vehicle_controller_ (p : option VehicleController) : M unit :=
  store (fun f => mkFactory (can_client_ f) (message_manager_ f) p
                    (node_ f) (chassis_detail_writer_ f)
                    (chassis_detail_sender_writer_ f)).

Definition set_node_ (p : option Node) : M unit :=
  store (fun f => mkFactory (can_client_ f) (message_manager_ f)
                    (vehicle_controller_ f) p (chassis_detail_writer_ f)
                    (chassis_detail_sender_writer_ f)).

Definition set_chassis_detail_writer_ (p : option Writer) : M unit :=
  store (fun f => mkFactory (can_client_ f) (message_manager_ f)
                    (vehicle_controller_ f) (node_ f) p
                    (chassis_detail_sender_writer_ f)).

Definition set_chassis_detail_sender_writer_ (p : option Writer) : M unit :=
  store (fun f => mkFactory (can_client_ f) (message_manager_ f)
                    (vehicle_controller_ f) (node_ f)
                    (chassis_detail_writer_ f) p).

(** ** The messaging fabric, as the factory uses it *)

(** Modelled from the spec: [::apollo::cyber::CreateNode(name)], not part of
    this file; registration with the messaging fabric has no failure
    result. *)
Definition CreateNode (name : string) : M Node :=
  call_void (cyber_CreateNode name) (E_CreateNode name) ;;
  ret (mkNode name).

(** Modelled from the spec: [node->CreateWriter<Neolix_edu>(topic)], not
    part of this file; "channel registration by topic name". *)
Definition CreateWriter (n : Node) (topic : string) : M Writer :=
  call_void (Node_CreateWriter n topic) (E_CreateWriter n topic) ;;
  ret (mkWriter n topic).

(** ** The methods of the factory *)

Definition CreateVehicleController : M (option VehicleController) :=
  call new_Neolix_eduController E_new_VehicleController.

Definition CreateMessageManager : M (option MessageManager) :=
  call new_Neolix_eduMessageManager E_new_MessageManager.

Definition Init (canbus_conf : CanbusConf) : M bool :=
  (* Init can client *)
  call_void CanClientFactory_RegisterCanClients E_RegisterCanClients ;;
  created <- call (CanClientFactory_CreateCANClient
                     (can_card_parameter canbus_conf))
                  (E_CreateCANClient (can_card_parameter canbus_conf)) ;;
  set_can_client_ created ;;
  p <- load can_client_ ;;
  match p with
  | None =>
      AERROR "Failed to create can client." ;;
      ret false
  | Some client =>
  AINFO "Can client is successfully created." ;;

  created <- CreateMessageManager ;;
  set_message_manager_ created ;;
  p <- load message_manager_ ;;
  match p with
  | None =>
      AERROR "Failed to create message manager." ;;
      ret false
  | Some manager =>
  AINFO "Message manager is successfully created." ;;

  e <- call (CanReceiver_Init client manager (enable_receiver_log canbus_conf))
            (E_CanReceiver_Init client manager
               (enable_receiver_log canbus_conf)) ;;
  if negb (is_OK e) then
    AERROR "Failed to init can receiver." ;;
    ret false
  else
  AINFO "The can receiver is successfully initialized." ;;

  e <- call (CanSender_Init client manager (enable_sender_log canbus_conf))
            (E_CanSender_Init client manager
               (enable_sender_log canbus_conf)) ;;
  if negb (is_OK e) then
    AERROR "Failed to init can sender." ;;
    ret false
  else
  AINFO "The can sender is successfully initialized." ;;

  created <- CreateVehicleController ;;
  set_vehicle_controller_ created ;;
  p <- load vehicle_controller_ ;;
  match p with
  | None =>
      AERROR "Failed to create vehicle controller." ;;
      ret false
  | Some controller =>
  AINFO "The vehicle controller is successfully created." ;;

  e <- call (VehicleController_Init controller
               (vehicle_parameter canbus_conf) manager)
            (E_VehicleController_Init controller
               (vehicle_parameter canbus_conf) manager) ;;
  if negb (is_OK e) then
    AERROR "Failed to init vehicle controller." ;;
    ret false
  else

  AINFO ("The vehicle controller is successfully"
         ++ " initialized with canbus conf as : "
         ++ VehicleParameter_ShortDebugString
              (vehicle_parameter canbus_conf)) ;;

  n <- CreateNode "chassis_detail" ;;
  set_node_ (Some n) ;;

  n <- deref node_member node_ ;;
  w <- CreateWriter n FLAGS_chassis_detail_topic ;;
  set_chassis_detail_writer_ (Some w) ;;

  n <- deref node_member node_ ;;
  w <- CreateWriter n FLAGS_chassis_detail_sender_topic ;;
  set_chassis_detail_sender_writer_ (Some w) ;;

  ret true
  end end end.

Definition Start : M bool :=
  (* 1. init and start the can card hardware *)
  client <- deref can_client_member can_client_ ;;
  e <- call (CanClient_Start client) (E_CanClient_Start client) ;;
  if negb (is_OK e) then
    AERROR "Failed to start can client" ;;
    ret false
  else
  AINFO "Can client is started." ;;

  (* 2. start receive first then send *)
  e <- call CanReceiver_Start E_CanReceiver_Start ;;
  if negb (is_OK e) then
    AERROR "Failed to start can receiver." ;;
    ret false
  else
  AINFO "Can receiver is started." ;;

  (* 3. start send *)
  e <- call CanSender_Start E_CanSender_Start ;;
  if negb (is_OK e) then
    AERROR "Failed to start can sender." ;;
    ret false
  else

  (* 4. start controller *)
  controller <- deref vehicle_controller_member vehicle_controller_ ;;
  started <- call (VehicleController_Start controller)
                  (E_VehicleController_Start controller) ;;
  if negb started then
    AERROR "Failed to start vehicle controller." ;;
    ret false
  else

  ret true.

Definition Stop : M unit :=
  call_void CanSender_Stop E_CanSender_Stop ;;
  call_void CanReceiver_Stop E_CanReceiver_Stop ;;
  client <- deref can_client_member can_client_ ;;
  call_void (CanClient_Stop client) (E_CanClient_Stop client) ;;
  controller <- deref vehicle_controller_member vehicle_controller_ ;;
  call_void (VehicleController_Stop controller)
            (E_VehicleController_Stop controller) ;;
  AINFO "Cleanup cansender, canreceiver, canclient, vehicle controller.".

(** The two overloads of [UpdateCommand]. *)
Definition UpdateCommand_ControlCommand (control_command : ControlCommand)
  : M unit :=
  controller <- deref vehicle_controller_member vehicle_controller_ ;;
  e <- call (VehicleController_Update_ControlCommand controller
               control_command)
            (E_Update_ControlCommand controller control_command) ;;
  if negb (is_OK e) then
    AERROR ("Failed to process callback function OnControlCommand because "
            ++ "vehicle_controller_->Update error.") ;;
    ret tt
  else
  call_void CanSender_Update E_CanSender_Update.

Definition UpdateCommand_ChassisCommand (chassis_command : ChassisCommand)
  : M unit :=
  controller <- deref vehicle_controller_member vehicle_controller_ ;;
  e <- call (VehicleController_Update_ChassisCommand controller
               chassis_command)
            (E_Update_ChassisCommand controller chassis_command) ;;
  if negb (is_OK e) then
    AERROR ("Failed to process callback function OnControlCommand because "
            ++ "vehicle_controller_->Update error.") ;;
    ret tt
  else
  call_void CanSender_Update E_CanSender_Update.

Definition publish_chassis : M Chassis :=
  controller <- deref vehicle_controller_member vehicle_controller_ ;;
  chassis <- call (VehicleController_chassis controller)
                  (E_chassis controller) ;;
  ADEBUG (Chassis_ShortDebugString chassis) ;;
  ret chassis.

Definition PublishChassisDetail : M unit :=
  controller <- deref vehicle_controller_member vehicle_controller_ ;;
  chassis_detail <- call (VehicleController_GetNewRecvChassisDetail controller)
                         (E_GetNewRecvChassisDetail controller) ;;
  ADEBUG ("latest chassis_detail is "
          ++ Neolix_edu_ShortDebugString chassis_detail) ;;
  writer <- deref chassis_detail_writer_member chassis_detail_writer_ ;;
  call_void (Writer_Write writer chassis_detail)
            (E_Write writer chassis_detail).

Definition PublishChassisDetailSender : M unit :=
  controller <- deref vehicle_controller_member vehicle_controller_ ;;
  sender_chassis_detail <-
    call (VehicleController_GetNewSenderChassisDetail controller)
         (E_GetNewSenderChassisDetail controller) ;;
  ADEBUG ("latest sender_chassis_detail is "
          ++ Neolix_edu_ShortDebugString sender_chassis_detail) ;;
  writer <- deref chassis_detail_sender_writer_member
                  chassis_detail_sender_writer_ ;;
  call_void (Writer_Write writer sender_chassis_detail)
            (E_Write writer sender_chassis_detail).

Definition UpdateHeartbeat : M unit :=
  call_void CanSender_Update_Heartbeat E_CanSender_Update_Heartbeat.

Definition CheckChassisCommunicationFault : M bool :=
  controller <- deref vehicle_controller_member vehicle_controller_ ;;
  lost <- call (VehicleController_CheckChassisCommunicationError controller)
               (E_CheckChassisCommunicationError controller) ;;
  if lost then
    ret true
  else
  ret false.

Definition AddSendProtocol : M unit :=
  controller <- deref vehicle_controller_member vehicle_controller_ ;;
  call_void (VehicleController_AddSendMessage controller)
            (E_AddSendMessage controller).

Definition ClearSendProtocol : M unit :=
  call_void CanSender_ClearMessage E_CanSender_ClearMessage.

Definition IsSendProtocolClear : M bool :=
  clear <- call CanSender_IsMessageClear E_CanSender_IsMessageClear ;;
  if clear then
    ret true
  else
  ret false.

Definition Driving_Mode : M DrivingMode :=
  controller <- deref vehicle_controller_member vehicle_controller_ ;;
  call (VehicleController_driving_mode controller) (E_driving_mode controller).

(** ** Reading a run *)

(** The six fallible steps of [Init], in the order of the source. *)
Inductive InitStep : Type :=
| CreateCANClient_step
| CreateMessageManager_step
| CanReceiver_Init_step
| CanSender_Init_step
| CreateVehicleController_step
| VehicleController_Init_step.

Definition is_Some {A} (o : option A) : bool :=
  match o with Some _ => true | None => false end.

(** Which fallible step of [Init] a call is, and whether it succeeded. *)
Definition init_step_of (c : Call) : option (InitStep * bool) :=
  match c with
  | E_CreateCANClient _ r => Some (CreateCANClient_step, is_Some r)
  | E_new_MessageManager r => Some (CreateMessageManager_step, is_Some r)
  | E_CanReceiver_Init _ _ _ r => Some (CanReceiver_Init_step, is_OK r)
  | E_CanSender_Init _ _ _ r => Some (CanSender_Init_step, is_OK r)
  | E_new_VehicleController r => Some (CreateVehicleController_step, is_Some r)
  | E_VehicleController_Init _ _ _ r =>
      Some (VehicleController_Init_step, is_OK r)
  | _ => None
  end.

Fixpoint init_steps (l : list Call) : list (InitStep * bool) :=
  match l with
  | [] => []
  | c :: l' =>
      match init_step_of c with
      | Some x => x :: init_steps l'
      | None => init_steps l'
      end
  end.

(** The fallible steps that come before a given one. *)
Definition steps_before (k : InitStep) : list InitStep :=
  match k with
  | CreateCANClient_step => []
  | CreateMessageManager_step => [CreateCANClient_step]
  | CanReceiver_Init_step => [CreateCANClient_step; CreateMessageManager_step]
  | CanSender_Init_step =>
      [CreateCANClient_step; CreateMessageManager_step; CanReceiver_Init_step]
  | CreateVehicleController_step =>
      [CreateCANClient_step; CreateMessageManager_step; CanReceiver_Init_step;
       CanSender_Init_step]
  | VehicleController_Init_step =>
      [CreateCANClient_step; CreateMessageManager_step; CanReceiver_Init_step;
       CanSender_Init_step; CreateVehicleController_step]
  end.


(** The calls of a run that start or stop a subsystem. *)
Definition is_start (c : Call) : bool :=
  match c with
  | E_CanClient_Start _ _ | E_CanReceiver_Start _ | E_CanSender_Start _
  | E_VehicleController_Start _ _ => true
  | _ => false
  end.

Definition is_stop (c : Call) : bool :=
  match c with
  | E_CanSender_Stop | E_CanReceiver_Stop | E_CanClient_Stop _
  | E_VehicleController_Stop _ => true
  | _ => false
  end.

(** The calls of the send loop's flush, [CanSender::Update]. *)
Definition is_flush (c : Call) : bool :=
  match c with E_CanSender_Update => true | _ => false end.

Definition flushes (l : list Call) : nat := List.length (filter is_flush l).

(** The messages written, each with the channel it went to. *)
Fixpoint writes (l : list Call) : list (string * Neolix_edu) :=
  match l with
  | [] => []
  | E_Write w msg :: l' => (writer_channel w, msg) :: writes l'
  | _ :: l' => writes l'
  end.

(** A run that came back to its caller. *)
Definition returned {A} (r : Run A) : Prop :=
  exists a, outcome r = Returned a.

Definition InitStep_eqb (a b : InitStep) : bool :=
  match a, b with
  | CreateCANClient_step, CreateCANClient_step
  | CreateMessageManager_step, CreateMessageManager_step
  | CanReceiver_Init_step, CanReceiver_Init_step
  | CanSender_Init_step, CanSender_Init_step
  | CreateVehicleController_step, CreateVehicleController_step
  | VehicleController_Init_step, VehicleController_Init_step => true
  | _, _ => false
  end.

(** Whether step [j] has been made when [Init] gives up at step [k]. *)
Definition made_by (k j : InitStep) : bool :=
  existsb (InitStep_eqb j) (steps_before k ++ [k]).

(** Every public method, for speaking of the states a factory can be in. *)
Inductive Facade : Type :=
| F_Init (canbus_conf : CanbusConf)
| F_Start
| F_Stop
| F_UpdateCommand_ControlCommand (control_command : ControlCommand)
| F_UpdateCommand_ChassisCommand (chassis_command : ChassisCommand)
| F_publish_chassis
| F_PublishChassisDetail
| F_PublishChassisDetailSender
| F_UpdateHeartbeat
| F_CheckChassisCommunicationFault
| F_AddSendProtocol
| F_ClearSendProtocol
| F_IsSendProtocolClear
| F_Driving_Mode.

Definition invoke (f : Facade) : M unit :=
  match f with
  | F_Init canbus_conf => Init canbus_conf ;; ret tt
  | F_Start => Start ;; ret tt
  | F_Stop => Stop
  | F_UpdateCommand_ControlCommand c => UpdateCommand_ControlCommand c
  | F_UpdateCommand_ChassisCommand c => UpdateCommand_ChassisCommand c
  | F_publish_chassis => publish_chassis ;; ret tt
  | F_PublishChassisDetail => PublishChassisDetail
  | F_PublishChassisDetailSender => PublishChassisDetailSender
  | F_UpdateHeartbeat => UpdateHeartbeat
  | F_CheckChassisCommunicationFault => CheckChassisCommunicationFault ;; ret tt
  | F_AddSendProtocol => AddSendProtocol
  | F_ClearSendProtocol => ClearSendProtocol
  | F_IsSendProtocolClear => IsSendProtocolClear ;; ret tt
  | F_Driving_Mode => Driving_Mode ;; ret tt
  end.

(** The states that method calls which return lead to, from [s0]. *)
Inductive reachable (s0 : State) : State -> Prop :=
| reachable_here : reachable s0 s0
| reachable_call (f : Facade) (s : State) :
    reachable s0 s ->
    returned (invoke f s) ->
    reachable s0 (final (invoke f s)).

Definition is_Init (f : Facade) : bool :=
  match f with F_Init _ => true | _ => false end.

(** A sequence of method calls, one after the other. *)
Fixpoint invoke_all (l : list Facade) : M unit :=
  match l with
  | [] => ret tt
  | f :: l' => invoke f ;; invoke_all l'
  end.

(** The four pointers that the methods other than [Init] go through are
    all set. *)
Definition wired (f : Neolix_eduVehicleFactory) : bool :=
  is_Some (can_client_ f) && is_Some (vehicle_controller_ f) &&
  is_Some (chassis_detail_writer_ f) &&
  is_Some (chassis_detail_sender_writer_ f).

(** The severity of the line that [Init] logs for a fallible step. *)
Definition severity_of_step (st : InitStep * bool) : Severity :=
  if snd st then INFO else ERROR.

Definition is_ERROR (l : LogLine) : bool :=
  match fst l with ERROR => true | _ => false end.

(** The number of lines logged through AERROR. *)
Definition errors (l : list LogLine) : nat := List.length (filter is_ERROR l).

End Factory.

(** ** A model of the collaborators

    The send loop, the vehicle controller and the other collaborators are
    classes of other files.  [spec_model] gives each of them a definite
    behaviour: the calls that can fail answer what a [Script] tells them to,
    and the protocol set and the communication check follow the spec. *)

Record Script : Type := mkScript {
  CreateCANClient_result : option nat;
  new_MessageManager_result : option nat;
  CanReceiver_Init_result : ErrorCode;
  CanSender_Init_result : ErrorCode;
  new_Controller_result : option nat;
  Controller_Init_result : ErrorCode;
  CanClient_Start_result : ErrorCode;
  CanReceiver_Start_result : ErrorCode;
  CanSender_Start_result : ErrorCode;
  Controller_Start_result : bool;
  Controller_Update_result : ErrorCode
}.

Record ModelWorld : Type := mkModelWorld {
  script : Script;
  (* send loop: the outgoing messages registered with it *)
  send_messages : list nat;
  (* controller: the message templates it intends to transmit *)
  controller_messages : list nat;
  (* controller: loss of the expected periodic frames was detected *)
  frames_lost : bool;
  (* controller: latest received and latest staged-for-send snapshots *)
  received_snapshot : nat;
  staged_snapshot : nat;
  chassis_summary : nat;
  current_driving_mode : nat
}.

Definition with_send_messages (l : list nat) (w : ModelWorld) : ModelWorld :=
  mkModelWorld (script w) l (controller_messages w) (frames_lost w)
    (received_snapshot w) (staged_snapshot w) (chassis_summary w)
    (current_driving_mode w).

(** Modelled from the spec: [CanSender::ClearMessage], not part of this
    file.  "Empties the Send Loop's pending/registered message set
    entirely." *)
Definition model_ClearMessage (w : ModelWorld) : ModelWorld :=
  with_send_messages [] w.

(** Modelled from the spec: [CanSender::IsMessageClear], not part of this
    file.  "True iff the Send Loop currently has no registered outgoing
    messages." *)
Definition model_IsMessageClear (w : ModelWorld) : bool * ModelWorld :=
  (match send_messages w with [] => true | _ :: _ => false end, w).

(** Modelled from the spec: [VehicleController::AddSendMessage], not part of
    this file.  "Asks the controller to (re)register the set of outgoing
    message templates it intends to transmit." *)
Definition model_AddSendMessage (v : nat) (w : ModelWorld) : ModelWorld :=
  with_send_messages (send_messages w ++ controller_messages w) w.

(** Modelled from the spec:
    [VehicleController::CheckChassisCommunicationError], not part of this
    file.  "Detects loss of expected periodic frames from the bus within a
    timeout window; returns true exactly when such loss is detected, and is
    purely observational." *)
Definition model_CheckChassisCommunicationError (v : nat) (w : ModelWorld)
  : bool * ModelWorld :=
  (frames_lost w, w).

Definition scripted {A} (f : Script -> A) (w : ModelWorld) : A * ModelWorld :=
  (f (script w), w).

Definition unchanged (w : ModelWorld) : ModelWorld := w.

Definition show (n : nat) : string := "#".

Definition spec_model : Collaborators := {|
  World := ModelWorld;
  CANCardParameter := nat;
  VehicleParameter := nat;
  ControlCommand := nat;
  ChassisCommand := nat;
  Neolix_edu := nat;
  Chassis := nat;
  DrivingMode := nat;
  VehicleParameter_ShortDebugString := show;
  Chassis_ShortDebugString := show;
  Neolix_edu_ShortDebugString := show;
  CanClient := nat;
  MessageManager := nat;
  VehicleController := nat;
  FLAGS_chassis_detail_topic := "/apollo/canbus/chassis_detail";
  FLAGS_chassis_detail_sender_topic := "/apollo/canbus/chassis_detail_sender";
  CanClientFactory_RegisterCanClients := unchanged;
  CanClientFactory_CreateCANClient := fun _ => scripted CreateCANClient_result;
  CanClient_Start := fun _ => scripted CanClient_Start_result;
  CanClient_Stop := fun _ => unchanged;
  new_Neolix_eduMessageManager := scripted new_MessageManager_result;
  CanReceiver_Init := fun _ _ _ => scripted CanReceiver_Init_result;
  CanReceiver_Start := scripted CanReceiver_Start_result;
  CanReceiver_Stop := unchanged;
  CanSender_Init := fun _ _ _ => scripted CanSender_Init_result;
  CanSender_Start := scripted CanSender_Start_result;
  CanSender_Stop := unchanged;
  CanSender_Update := unchanged;
  CanSender_Update_Heartbeat := unchanged;
  CanSender_ClearMessage := model_ClearMessage;
  CanSender_IsMessageClear := model_IsMessageClear;
  new_Neolix_eduController := scripted new_Controller_result;
  VehicleController_Init := fun _ _ _ => scripted Controller_Init_result;
  VehicleController_Start := fun _ => scripted Controller_Start_result;
  VehicleController_Stop := fun _ => unchanged;
  VehicleController_Update_ControlCommand :=
    fun _ _ => scripted Controller_Update_result;
  VehicleController_Update_ChassisCommand :=
    fun _ _ => scripted Controller_Update_result;
  VehicleController_chassis := fun _ w => (chassis_summary w, w);
  VehicleController_GetNewRecvChassisDetail :=
    fun _ w => (received_snapshot w, w);
  VehicleController_GetNewSenderChassisDetail :=
    fun _ w => (staged_snapshot w, w);
  VehicleController_CheckChassisCommunicationError :=
    model_CheckChassisCommunicationError;
  VehicleController_AddSendMessage := model_AddSendMessage;
  VehicleController_driving_mode := fun _ w => (current_driving_mode w, w);
  cyber_CreateNode := fun _ => unchanged;
  Node_CreateWriter := fun _ _ => unchanged;
  Writer_Write := fun _ _ => unchanged
|}.

(** A script in which every call succeeds. *)
Definition all_succeed : Script :=
  mkScript (Some 1) (Some 2) OK OK (Some 3) OK OK OK OK true OK.


(** The same as [all_succeed], but the vehicle controller's Init reports an
    error. *)
Definition controller_init_fails : Script :=
  mkScript (Some 1) (Some 2) OK OK (Some 3) (NotOK 2000) OK OK OK true OK.

(** The same as [all_succeed], but the sender does not start. *)
Definition sender_start_fails : Script :=
  mkScript (Some 1) (Some 2) OK OK (Some 3) OK OK OK (NotOK 2000) true OK.

(** The same as [all_succeed], but the controller's Update reports an
    error. *)
Definition update_fails : Script :=
  mkScript (Some 1) (Some 2) OK OK (Some 3) OK OK OK OK true (NotOK 2000).

(** The receiver's Init reports an error, and so does the CAN client's
    Start. *)
Definition receiver_init_and_client_start_fail : Script :=
  mkScript (Some 1) (Some 2) (NotOK 2000) OK (Some 3) OK (NotOK 2100) OK OK
    true OK.

(** The same as [all_succeed], but no CAN client can be created. *)
Definition client_creation_fails : Script :=
  mkScript None (Some 2) OK OK (Some 3) OK OK OK OK true OK.

(** A world in which nothing is registered with the send loop yet, and the
    controller has five messages to send. *)
Definition model_world (sc : Script) : ModelWorld :=
  mkModelWorld sc [] [70; 82; 84; 85; 86] false 11 22 33 0.

Definition model_conf : @CanbusConf spec_model :=
  @mkCanbusConf spec_model 5 6 false false.

(** Before [Init]: all members null. *)
Definition model_start (sc : Script) : @State spec_model :=
  @mkState spec_model (@fresh_factory spec_model) (model_world sc).

(** After a successful [Init]. *)
Definition model_ready : @State spec_model :=
  final (@invoke spec_model (F_Init model_conf) (model_start all_succeed)).

(** The world of [model_ready] after new frames have come in and new ones
    have been staged. *)
Definition model_world_later : ModelWorld :=
  mkModelWorld all_succeed [] [70; 82; 84; 85; 86] false 12 23 34 1.

(** After a successful [Init] and [AddSendProtocol]. *)
Definition model_populated : @State spec_model :=
  final (@invoke spec_model F_AddSendProtocol model_ready).

(** In the model, every message registered with the send loop is one of the
    controller's. *)
Definition registered_from_controller (s : @State spec_model) : Prop :=
  incl (send_messages (world s)) (controller_messages (world s)).

(** * Properties of the factory *)

(** Unfolding a method down to the collaborator calls it makes. *)
Ltac expose :=
  unfold Init, Start, Stop, UpdateCommand_ControlCommand,
    UpdateCommand_ChassisCommand, publish_chassis, PublishChassisDetail,
    PublishChassisDetailSender, UpdateHeartbeat,
    CheckChassisCommunicationFault, AddSendProtocol, ClearSendProtocol,
    IsSendProtocolClear, Driving_Mode, CreateMessageManager,
    CreateVehicleController, CreateNode, CreateWriter,
    set_can_client_, set_message_manager_, set_vehicle_controller_,
    set_node_, set_chassis_detail_writer_, set_chassis_detail_sender_writer_,
    AINFO, AERROR, ADEBUG, write_log, deref, load, store, call, call_void,
    bind, ret;
  cbn.

(** Case analysis on the result of the next collaborator call. *)
Ltac next_call :=
  match goal with
  | |- context [fst ?x] =>
      let r := fresh "r" in
      let w := fresh "w" in
      let E := fresh "E" in
      destruct x as [r w] eqn:E; cbn [fst snd];
      try (destruct r; cbn)
  end.

Ltac all_calls := repeat next_call.

(** Finding, in the hypothesis that some step failed, which step it is. *)
Ltac pick_step H :=
  cbn in H;
  repeat (destruct H as [H | H]; [inversion H; subst; clear H | ]);
  try contradiction.

(** No call of the list in the goal is a stop. *)
Ltac no_stop_call :=
  let ev := fresh "ev" in
  let Hev := fresh "Hev" in
  intros ev Hev; cbn in Hev;
  repeat (destruct Hev as [Hev | Hev]; [subst ev; reflexivity | ]);
  contradiction.

(** The cases of a statement about [Start], once the answers are known. *)
Ltac start_cases :=
  repeat split; intros;
  try discriminate;
  repeat match goal with
         | H : Some _ = Some _ |- _ => inversion H; subst; clear H
         end;
  repeat match goal with
         | E : VehicleController_Start _ _ = _ |- _ => rewrite E; clear E
         end;
  reflexivity.

Section FactoryProperties.

Context {C : Collaborators}.

(** [Init] always comes back to its caller. *)
Lemma Init_returns (canbus_conf : CanbusConf) (s : State) :
  returned (Init canbus_conf s).
Proof.
  unfold returned. expose. all_calls; eexists; reflexivity.
Qed.



(** C5, as amended.  When a step of [Init] fails, [Init] returns false and
    undoes nothing: [can_client_], [message_manager_] and
    [vehicle_controller_] hold what the creation steps made so far have
    returned, the members of the steps not reached are as they were before
    the call, as are the node and the two writers, and no subsystem is
    started or stopped. *)
Theorem Init_failure_keeps_partial_wiring
    (canbus_conf : CanbusConf) (s : State) (k : InitStep) :
  In (k, false) (init_steps (calls (Init canbus_conf s))) ->
  outcome (Init canbus_conf s) = Returned false /\
  (forall c, In c (calls (Init canbus_conf s)) ->
     is_start c = false /\ is_stop c = false) /\
  In (E_CreateCANClient (can_card_parameter canbus_conf)
        (can_client_ (self (final (Init canbus_conf s)))))
     (calls (Init canbus_conf s)) /\
  (if made_by k CreateMessageManager_step
   then In (E_new_MessageManager
              (message_manager_ (self (final (Init canbus_conf s)))))
           (calls (Init canbus_conf s))
   else message_manager_ (self (final (Init canbus_conf s))) =
        message_manager_ (self s)) /\
  (if made_by k CreateVehicleController_step
   then In (E_new_VehicleController
              (vehicle_controller_ (self (final (Init canbus_conf s)))))
           (calls (Init canbus_conf s))
   else vehicle_controller_ (self (final (Init canbus_conf s))) =
        vehicle_controller_ (self s)) /\
  node_ (self (final (Init canbus_conf s))) = node_ (self s) /\
  chassis_detail_writer_ (self (final (Init canbus_conf s))) =
    chassis_detail_writer_ (self s) /\
  chassis_detail_sender_writer_ (self (final (Init canbus_conf s))) =
    chassis_detail_sender_writer_ (self s).
Proof.
  expose. all_calls; intro H; pick_step H; unfold made_by; cbn;
    (split; [reflexivity | split]).
  all: try (intros ev Hev; cbn in Hev;
            repeat (destruct Hev as [Hev | Hev]; [subst ev; cbn; auto | ]);
            contradiction).
  all: repeat split; try reflexivity;
       repeat first [left; reflexivity | right].
Qed.

(** [Start] and [Stop] write no member. *)
Lemma Start_keeps_members (s : State) : self (final (Start s)) = self s.
Proof.
  expose. destruct (can_client_ (self s)); cbn; [ | reflexivity].
  all_calls; try reflexivity.
  all: destruct (vehicle_controller_ (self s)); cbn; [ | reflexivity].
  all: all_calls; reflexivity.
Qed.

Lemma Stop_keeps_members (s : State) : self (final (Stop s)) = self s.
Proof.
  expose. destruct (can_client_ (self s)); cbn; [ | reflexivity].
  destruct (vehicle_controller_ (self s)); cbn; reflexivity.
Qed.

(** With both pointers set, [Stop] makes its four calls and returns. *)
Lemma Stop_runs (s : State) (client : CanClient)
    (controller : VehicleController) :
  can_client_ (self s) = Some client ->
  vehicle_controller_ (self s) = Some controller ->
  outcome (Stop s) = Returned tt /\
  calls (Stop s) =
    [E_CanSender_Stop; E_CanReceiver_Stop; E_CanClient_Stop client;
     E_VehicleController_Stop controller] /\
  final (Stop s) =
    mkState (self s)
      (VehicleController_Stop controller
         (CanClient_Stop client
            (CanReceiver_Stop (CanSender_Stop (world s))))).
Proof.
  intros Hc Hv. expose. rewrite Hc. cbn. rewrite Hv. cbn.
  repeat split; reflexivity.
Qed.

(** C2.  On a factory whose CAN client is set, [Start] starts the CAN
    client, then the receiver, then the sender, then the vehicle controller,
    each in the world the one before has left.  The first of them that does
    not answer OK (for the controller: answers false) is the last call made:
    [Start] returns false and the world is the one that this call has left,
    with the stages before it started and nothing stopped.  When all four
    succeed [Start] returns true. *)
Theorem Start_in_order (s : State) (client : CanClient) :
  can_client_ (self s) = Some client ->
  let r1 := CanClient_Start client (world s) in
  let r2 := CanReceiver_Start (snd r1) in
  let r3 := CanSender_Start (snd r2) in
  (forall c, In c (calls (Start s)) -> is_stop c = false) /\
  (is_OK (fst r1) = false ->
   outcome (Start s) = Returned false /\
   calls (Start s) = [E_CanClient_Start client (fst r1)] /\
   final (Start s) = mkState (self s) (snd r1)) /\
  (is_OK (fst r1) = true -> is_OK (fst r2) = false ->
   outcome (Start s) = Returned false /\
   calls (Start s) =
     [E_CanClient_Start client OK; E_CanReceiver_Start (fst r2)] /\
   final (Start s) = mkState (self s) (snd r2)) /\
  (is_OK (fst r1) = true -> is_OK (fst r2) = true -> is_OK (fst r3) = false ->
   outcome (Start s) = Returned false /\
   calls (Start s) =
     [E_CanClient_Start client OK; E_CanReceiver_Start OK;
      E_CanSender_Start (fst r3)] /\
   final (Start s) = mkState (self s) (snd r3)) /\
  (forall controller,
     vehicle_controller_ (self s) = Some controller ->
     is_OK (fst r1) = true -> is_OK (fst r2) = true -> is_OK (fst r3) = true ->
     let r4 := VehicleController_Start controller (snd r3) in
     outcome (Start s) = Returned (fst r4) /\
     calls (Start s) =
       [E_CanClient_Start client OK; E_CanReceiver_Start OK;
        E_CanSender_Start OK; E_VehicleController_Start controller (fst r4)] /\
     final (Start s) = mkState (self s) (snd r4)).
Proof.
  intros Hc. cbv zeta. expose. rewrite Hc. cbn.
  destruct (CanClient_Start client (world s)) as [e1 w1];
    cbn [fst snd]; destruct e1; cbn.
  2: { split; [no_stop_call | start_cases]. }
  destruct (CanReceiver_Start w1) as [e2 w2];
    cbn [fst snd]; destruct e2; cbn.
  2: { split; [no_stop_call | start_cases]. }
  destruct (CanSender_Start w2) as [e3 w3];
    cbn [fst snd]; destruct e3; cbn.
  2: { split; [no_stop_call | start_cases]. }
  destruct (vehicle_controller_ (self s)) as [v | ]; cbn.
  - destruct (VehicleController_Start v w3) as [[ | ] w4] eqn:E4; cbn;
      (split; [no_stop_call | start_cases]).
  - split; [no_stop_call | start_cases].
Qed.

(** C3.  For either kind of command, on a factory whose vehicle controller
    is set: when the controller's Update answers anything but OK,
    [UpdateCommand] returns having called nothing else, so the send loop is
    not flushed and is left as the controller left it; when it answers OK,
    [CanSender::Update] is called exactly once, after it. *)
Theorem UpdateCommand_flushes_only_on_success (s : State)
    (controller : VehicleController) :
  vehicle_controller_ (self s) = Some controller ->
  (forall control_command,
     let u := VehicleController_Update_ControlCommand controller
                control_command (world s) in
     let r := UpdateCommand_ControlCommand control_command s in
     outcome r = Returned tt /\
     (fst u <> OK ->
        calls r = [E_Update_ControlCommand controller control_command (fst u)]
        /\ flushes (calls r) = 0 /\ final r = mkState (self s) (snd u)) /\
     (fst u = OK ->
        calls r = [E_Update_ControlCommand controller control_command OK;
                   E_CanSender_Update]
        /\ flushes (calls r) = 1
        /\ final r = mkState (self s) (CanSender_Update (snd u)))) /\
  (forall chassis_command,
     let u := VehicleController_Update_ChassisCommand controller
                chassis_command (world s) in
     let r := UpdateCommand_ChassisCommand chassis_command s in
     outcome r = Returned tt /\
     (fst u <> OK ->
        calls r = [E_Update_ChassisCommand controller chassis_command (fst u)]
        /\ flushes (calls r) = 0 /\ final r = mkState (self s) (snd u)) /\
     (fst u = OK ->
        calls r = [E_Update_ChassisCommand controller chassis_command OK;
                   E_CanSender_Update]
        /\ flushes (calls r) = 1
        /\ final r = mkState (self s) (CanSender_Update (snd u)))).
Proof.
  intro Hv. split; intro cmd; expose; rewrite Hv; cbn; next_call;
    repeat split; intros; try congruence; reflexivity.
Qed.

(** C4, as amended.  [Stop] makes no test.  On a factory whose CAN client
    and vehicle controller are set it applies the four stops, of the
    sender, the receiver, the CAN client and the vehicle controller, in this
    order, and returns; it does so again when called a second time, and
    also after a [Start], whatever that [Start] did.  With [can_client_]
    null it stops the sender and the receiver and then goes through the
    null pointer; with a client but [vehicle_controller_] null it also
    stops the client and goes through the null pointer then.  In these two
    cases it does not return and the vehicle controller is not stopped. *)
Theorem Stop_in_order_and_repeatable (s : State) :
  (forall client controller,
     can_client_ (self s) = Some client ->
     vehicle_controller_ (self s) = Some controller ->
     let stops :=
       [E_CanSender_Stop; E_CanReceiver_Stop; E_CanClient_Stop client;
        E_VehicleController_Stop controller] in
     let stopped := fun w =>
       VehicleController_Stop controller
         (CanClient_Stop client (CanReceiver_Stop (CanSender_Stop w))) in
     (outcome (Stop s) = Returned tt /\
      calls (Stop s) = stops /\
      final (Stop s) = mkState (self s) (stopped (world s))) /\
     (outcome (Stop (final (Stop s))) = Returned tt /\
      calls (Stop (final (Stop s))) = stops /\
      final (Stop (final (Stop s))) =
        mkState (self s) (stopped (stopped (world s)))) /\
     (outcome (Stop (final (Start s))) = Returned tt /\
      calls (Stop (final (Start s))) = stops /\
      final (Stop (final (Start s))) =
        mkState (self s) (stopped (world (final (Start s)))))) /\
  (can_client_ (self s) = None ->
   outcome (Stop s) = NullDereference can_client_member /\
   calls (Stop s) = [E_CanSender_Stop; E_CanReceiver_Stop] /\
   final (Stop s) =
     mkState (self s) (CanReceiver_Stop (CanSender_Stop (world s)))) /\
  (forall client,
     can_client_ (self s) = Some client ->
     vehicle_controller_ (self s) = None ->
     outcome (Stop s) = NullDereference vehicle_controller_member /\
     calls (Stop s) =
       [E_CanSender_Stop; E_CanReceiver_Stop; E_CanClient_Stop client] /\
     final (Stop s) =
       mkState (self s)
         (CanClient_Stop client
            (CanReceiver_Stop (CanSender_Stop (world s))))).
Proof.
  repeat apply conj.
  - intros client controller Hc Hv stops stopped.
    pose proof (Stop_runs s Hc Hv) as H1.
    assert (H2 := @Stop_runs (final (Stop s)) client controller).
    rewrite Stop_keeps_members in H2. specialize (H2 Hc Hv).
    assert (H3 := @Stop_runs (final (Start s)) client controller).
    rewrite Start_keeps_members in H3. specialize (H3 Hc Hv).
    destruct H1 as (Ho1 & Hc1 & Hf1).
    destruct H2 as (Ho2 & Hc2 & Hf2).
    destruct H3 as (Ho3 & Hc3 & Hf3).
    assert (Hw : world (final (Stop s)) = stopped (world s))
      by (rewrite Hf1; reflexivity).
    rewrite Hw in Hf2.
    repeat apply conj; assumption.
  - intro Hc. expose. rewrite Hc. cbn. repeat split; reflexivity.
  - intros client Hc Hv. expose. rewrite Hc. cbn. rewrite Hv. cbn.
    repeat split; reflexivity.
Qed.

(** C6, as amended.  Called while [can_client_] is null, [Start] does not
    return false: its first statement goes through the null pointer, before
    any collaborator is called and with the state untouched.  [Start]
    returns false only when a stage's start reports failure: the CAN
    client, the receiver or the sender answers something other than OK, or
    the vehicle controller answers false, the stages before it having
    succeeded. *)
Theorem Start_on_null_client_faults (s : State) :
  (can_client_ (self s) = None ->
   outcome (Start s) = NullDereference can_client_member /\
   calls (Start s) = [] /\
   final (Start s) = s) /\
  (outcome (Start s) = Returned false ->
   exists client,
     can_client_ (self s) = Some client /\
     let r1 := CanClient_Start client (world s) in
     let r2 := CanReceiver_Start (snd r1) in
     let r3 := CanSender_Start (snd r2) in
     (is_OK (fst r1) = false \/
      (is_OK (fst r1) = true /\ is_OK (fst r2) = false) \/
      (is_OK (fst r1) = true /\ is_OK (fst r2) = true /\
       is_OK (fst r3) = false) \/
      (is_OK (fst r1) = true /\ is_OK (fst r2) = true /\
       is_OK (fst r3) = true /\
       exists controller,
         vehicle_controller_ (self s) = Some controller /\
         fst (VehicleController_Start controller (snd r3)) = false))).
Proof.
  split.
  - intro Hc. expose. rewrite Hc. cbn. repeat split; reflexivity.
  - destruct (can_client_ (self s)) as [client | ] eqn:Hc.
    2: { expose. rewrite Hc. cbn. discriminate. }
    intro H. exists client. split; [reflexivity | ]. cbv zeta.
    revert H. expose. rewrite Hc. cbn.
    destruct (CanClient_Start client (world s)) as [e1 w1];
      cbn [fst snd]; destruct e1; cbn; [ | intros _; left; reflexivity].
    destruct (CanReceiver_Start w1) as [e2 w2];
      cbn [fst snd]; destruct e2; cbn;
      [ | intros _; right; left; split; reflexivity].
    destruct (CanSender_Start w2) as [e3 w3];
      cbn [fst snd]; destruct e3; cbn;
      [ | intros _; right; right; left; repeat split; reflexivity].
    destruct (vehicle_controller_ (self s)) as [v | ]; cbn;
      [ | discriminate].
    destruct (VehicleController_Start v w3) as [[ | ] w4] eqn:E4; cbn;
      [discriminate | ].
    intros _. do 3 right. repeat split.
    exists v. split; [reflexivity | ]. rewrite E4. reflexivity.
Qed.

(** The factory's fault check returns what the controller's check returns,
    calls nothing else, and writes no member. *)
Lemma CheckChassisCommunicationFault_delegates (s : State)
    (controller : VehicleController) :
  vehicle_controller_ (self s) = Some controller ->
  let q := VehicleController_CheckChassisCommunicationError controller
             (world s) in
  outcome (CheckChassisCommunicationFault s) = Returned (fst q) /\
  calls (CheckChassisCommunicationFault s) =
    [E_CheckChassisCommunicationError controller (fst q)] /\
  final (CheckChassisCommunicationFault s) = mkState (self s) (snd q).
Proof.
  intro Hv. expose. rewrite Hv. cbn. next_call; repeat split; reflexivity.
Qed.

(** What a successful [Init] leaves in the members that the publishing
    methods go through. *)
Lemma Init_true_wires (canbus_conf : CanbusConf) (s : State) :
  outcome (Init canbus_conf s) = Returned true ->
  exists controller,
    vehicle_controller_ (self (final (Init canbus_conf s))) =
      Some controller /\
    chassis_detail_writer_ (self (final (Init canbus_conf s))) =
      Some (mkWriter (mkNode "chassis_detail") FLAGS_chassis_detail_topic) /\
    chassis_detail_sender_writer_ (self (final (Init canbus_conf s))) =
      Some (mkWriter (mkNode "chassis_detail")
              FLAGS_chassis_detail_sender_topic).
Proof.
  expose. all_calls; intro H; try discriminate H.
  eexists. repeat split.
Qed.

Lemma PublishChassisDetail_runs (s : State) (controller : VehicleController)
    (writer : Writer) :
  vehicle_controller_ (self s) = Some controller ->
  chassis_detail_writer_ (self s) = Some writer ->
  outcome (PublishChassisDetail s) = Returned tt /\
  calls (PublishChassisDetail s) =
    [E_GetNewRecvChassisDetail controller
       (fst (VehicleController_GetNewRecvChassisDetail controller (world s)));
     E_Write writer
       (fst (VehicleController_GetNewRecvChassisDetail controller (world s)))]
  /\
  final (PublishChassisDetail s) =
    mkState (self s)
      (Writer_Write writer
         (fst (VehicleController_GetNewRecvChassisDetail controller
                 (world s)))
         (snd (VehicleController_GetNewRecvChassisDetail controller
                 (world s)))).
Proof.
  intros Hv Hw. expose. rewrite Hv. cbn. rewrite Hw. cbn.
  repeat split; reflexivity.
Qed.

Lemma PublishChassisDetailSender_runs (s : State)
    (controller : VehicleController) (writer : Writer) :
  vehicle_controller_ (self s) = Some controller ->
  chassis_detail_sender_writer_ (self s) = Some writer ->
  outcome (PublishChassisDetailSender s) = Returned tt /\
  calls (PublishChassisDetailSender s) =
    [E_GetNewSenderChassisDetail controller
       (fst (VehicleController_GetNewSenderChassisDetail controller
               (world s)));
     E_Write writer
       (fst (VehicleController_GetNewSenderChassisDetail controller
               (world s)))] /\
  final (PublishChassisDetailSender s) =
    mkState (self s)
      (Writer_Write writer
         (fst (VehicleController_GetNewSenderChassisDetail controller
                 (world s)))
         (snd (VehicleController_GetNewSenderChassisDetail controller
                 (world s)))).
Proof.
  intros Hv Hw. expose. rewrite Hv. cbn. rewrite Hw. cbn.
  repeat split; reflexivity.
Qed.

(** C9.  After a successful [Init], [PublishChassisDetail] takes the
    controller's latest received detail and applies the write of exactly
    that message to the writer of FLAGS_chassis_detail_topic, and
    [PublishChassisDetailSender] takes the controller's latest sender
    detail and applies the write of exactly that message to the writer of
    FLAGS_chassis_detail_sender_topic; the world each leaves is the one
    after that fetch and that write and nothing else.  Each takes the
    detail from the world it is called in, so this holds for any two
    worlds; and when the two topics differ neither method writes on the
    other's channel. *)
Theorem Publish_channels_do_not_cross
    (canbus_conf : CanbusConf) (s0 : State) (w1 w2 : World) :
  outcome (Init canbus_conf s0) = Returned true ->
  let f := self (final (Init canbus_conf s0)) in
  let r1 := PublishChassisDetail (mkState f w1) in
  let r2 := PublishChassisDetailSender (mkState f w2) in
  let writer1 :=
    mkWriter (mkNode "chassis_detail") FLAGS_chassis_detail_topic in
  let writer2 :=
    mkWriter (mkNode "chassis_detail") FLAGS_chassis_detail_sender_topic in
  exists controller,
    let q1 := VehicleController_GetNewRecvChassisDetail controller w1 in
    let q2 := VehicleController_GetNewSenderChassisDetail controller w2 in
    vehicle_controller_ f = Some controller /\
    outcome r1 = Returned tt /\
    outcome r2 = Returned tt /\
    calls r1 =
      [E_GetNewRecvChassisDetail controller (fst q1);
       E_Write writer1 (fst q1)] /\
    calls r2 =
      [E_GetNewSenderChassisDetail controller (fst q2);
       E_Write writer2 (fst q2)] /\
    final r1 = mkState f (Writer_Write writer1 (fst q1) (snd q1)) /\
    final r2 = mkState f (Writer_Write writer2 (fst q2) (snd q2)) /\
    writes (calls r1) = [(FLAGS_chassis_detail_topic, fst q1)] /\
    writes (calls r2) = [(FLAGS_chassis_detail_sender_topic, fst q2)] /\
    (FLAGS_chassis_detail_topic <> FLAGS_chassis_detail_sender_topic ->
     forall msg,
       ~ In (FLAGS_chassis_detail_sender_topic, msg) (writes (calls r1)) /\
       ~ In (FLAGS_chassis_detail_topic, msg) (writes (calls r2))).
Proof.
  intros Hinit f r1 r2 writer1 writer2.
  destruct (Init_true_wires canbus_conf s0 Hinit) as (controller & Hv & H1 & H2).
  destruct (@PublishChassisDetail_runs (mkState f w1) controller _ Hv H1)
    as (Ho1 & Hc1 & Hf1).
  destruct (@PublishChassisDetailSender_runs (mkState f w2) controller _ Hv H2)
    as (Ho2 & Hc2 & Hf2).
  exists controller. cbv zeta. subst r1 r2 writer1 writer2.
  rewrite Ho1, Ho2, Hc1, Hc2, Hf1, Hf2. cbn.
  repeat split; try assumption.
  - intros [Hin | []]. inversion Hin. congruence.
  - intros [Hin | []]. inversion Hin. congruence.
Qed.

End FactoryProperties.

(** * Properties that rest on the model of the collaborators *)

Ltac case_model :=
  repeat match goal with
         | |- context [match ?x with _ => _ end] => is_var x; destruct x; cbn
         | |- context [is_OK ?x] => is_var x; destruct x; cbn
         | |- context [negb ?x] => is_var x; destruct x; cbn
         end.

(** In the model, a method call keeps every registered message among the
    controller's. *)
Lemma invoke_keeps_registered (f : @Facade spec_model)
    (s : @State spec_model) :
  registered_from_controller s ->
  registered_from_controller (final (invoke f s)).
Proof.
  unfold registered_from_controller.
  destruct s as [[cl mm vc nd w1 w2] [sc sm cm fl rs ss cs dm]].
  destruct sc as [r1 r2 r3 r4 r5 r6 r7 r8 r9 r10 r11].
  cbn. intro H.
  destruct f; unfold invoke; expose;
    unfold scripted, unchanged, model_ClearMessage, model_IsMessageClear,
      model_AddSendMessage, model_CheckChassisCommunicationError,
      with_send_messages; cbn;
    case_model;
    first [ assumption
          | apply incl_nil_l
          | apply incl_app; [assumption | apply incl_refl] ].
Qed.

Lemma reachable_keeps_registered (s0 s : @State spec_model) :
  reachable s0 s ->
  registered_from_controller s0 ->
  registered_from_controller s.
Proof.
  induction 1 as [ | f s Hreach IH Hret]; intro H0.
  - assumption.
  - apply invoke_keeps_registered. apply IH. assumption.
Qed.

(** C7.  In the model of the send loop and the controller:
    [IsSendProtocolClear] returns true right after [ClearSendProtocol], in
    every state; and in a state reached from one with nothing registered,
    if the protocol set is not empty, then after [ClearSendProtocol]
    followed by [AddSendProtocol], [IsSendProtocolClear] returns false. *)
Theorem protocol_set_clear_then_add :
  (forall s : @State spec_model,
     outcome (IsSendProtocolClear (final (ClearSendProtocol s))) =
       Returned true) /\
  (forall (s0 s : @State spec_model) (controller : nat),
     send_messages (world s0) = [] ->
     reachable s0 s ->
     vehicle_controller_ (self s) = Some controller ->
     outcome (IsSendProtocolClear s) = Returned false ->
     outcome (AddSendProtocol (final (ClearSendProtocol s))) = Returned tt /\
     outcome (IsSendProtocolClear
                (final (AddSendProtocol (final (ClearSendProtocol s))))) =
       Returned false).
Proof.
  split.
  - intro s. reflexivity.
  - intros s0 s controller Hempty Hreach Hv Hpop.
    assert (Hinv : registered_from_controller s).
    { apply (reachable_keeps_registered Hreach).
      unfold registered_from_controller. rewrite Hempty. apply incl_nil_l. }
    unfold registered_from_controller in Hinv.
    destruct s as [[cl mm vc nd w1 w2] [sc sm cm fl rs ss cs dm]].
    cbn in Hv, Hinv. subst vc.
    revert Hpop. expose. unfold model_IsMessageClear, model_AddSendMessage,
      model_ClearMessage, with_send_messages. cbn.
    destruct sm as [ | m sm']; cbn; [discriminate | intros _].
    destruct cm as [ | m' cm']; cbn.
    + exfalso. apply (Hinv m). left. reflexivity.
    + split; reflexivity.
Qed.

(** C8.  For any collaborators, on a factory whose vehicle controller is
    set, [CheckChassisCommunicationFault] returns exactly what the
    controller's communication-error check returns, makes that one call and
    writes no member; and in the model of the controller, where the check
    reports the loss of the expected frames and only reads, the call leaves
    the whole state as it was. *)
Theorem CheckChassisCommunicationFault_observes :
  (forall (C : Collaborators) (s : State) (controller : VehicleController),
     vehicle_controller_ (self s) = Some controller ->
     outcome (CheckChassisCommunicationFault s) =
       Returned (fst (VehicleController_CheckChassisCommunicationError
                        controller (world s))) /\
     calls (CheckChassisCommunicationFault s) =
       [E_CheckChassisCommunicationError controller
          (fst (VehicleController_CheckChassisCommunicationError
                  controller (world s)))] /\
     self (final (CheckChassisCommunicationFault s)) = self s) /\
  (forall (s : @State spec_model) (controller : nat),
     vehicle_controller_ (self s) = Some controller ->
     outcome (CheckChassisCommunicationFault s) =
       Returned (frames_lost (world s)) /\
     final (CheckChassisCommunicationFault s) = s).
Proof.
  split.
  - intros C s controller Hv.
    destruct (CheckChassisCommunicationFault_delegates s Hv) as (Ho & Hc & Hf).
    rewrite Ho, Hc, Hf. repeat split; reflexivity.
  - intros s controller Hv.
    destruct (CheckChassisCommunicationFault_delegates s Hv) as (Ho & _ & Hf).
    rewrite Ho, Hf. destruct s as [f w]. split; reflexivity.
Qed.

(** * The theorems at concrete inputs *)

(** One life of the factory in the model: Init, Start, a control command,
    the fault check, Stop, and Stop again. *)
Example lifecycle_scenario :
  let s0 := model_start all_succeed in
  let r1 := @Init spec_model model_conf s0 in
  let r2 := @Start spec_model (final r1) in
  let r3 := @UpdateCommand_ControlCommand spec_model 9 (final r2) in
  let r4 := @CheckChassisCommunicationFault spec_model (final r3) in
  let r5 := @Stop spec_model (final r4) in
  let r6 := @Stop spec_model (final r5) in
  outcome r1 = Returned true /\
  outcome r2 = Returned true /\
  calls r3 =
    [@E_Update_ControlCommand spec_model 3 9 OK; E_CanSender_Update] /\
  outcome r4 = Returned false /\
  outcome r5 = Returned tt /\
  outcome r6 = Returned tt /\
  calls r6 =
    [@E_CanSender_Stop spec_model; E_CanReceiver_Stop;
     @E_CanClient_Stop spec_model 1; @E_VehicleController_Stop spec_model 3].
Proof.
  vm_compute. repeat split.
Qed.

(** The same with a controller whose Update reports an error: nothing is
    flushed. *)
Example rejected_command_is_not_flushed :
  let s := @mkState spec_model (self model_ready) (model_world update_fails) in
  calls (@UpdateCommand_ChassisCommand spec_model 9 s) =
    [@E_Update_ChassisCommand spec_model 3 9 (NotOK 2000)].
Proof.
  vm_compute. reflexivity.
Qed.



(** C5, as stated, fails: with a vehicle controller whose Init reports an
    error, [Init] returns false on a fresh factory and leaves the CAN
    client, the message manager and the vehicle controller in place, after
    the receiver and the sender were initialised with them. *)
Lemma Init_not_atomic :
  let s := model_start controller_init_fails in
  let r := @Init spec_model model_conf s in
  self s = fresh_factory /\
  outcome r = Returned false /\
  can_client_ (self (final r)) = Some 1 /\
  message_manager_ (self (final r)) = Some 2 /\
  vehicle_controller_ (self (final r)) = Some 3 /\
  In (@E_CanReceiver_Init spec_model 1 2 false OK) (calls r) /\
  In (@E_CanSender_Init spec_model 1 2 false OK) (calls r) /\
  self (final r) <> self s.
Proof.
  cbv zeta. repeat split; try reflexivity.
  - vm_compute. tauto.
  - vm_compute. tauto.
  - vm_compute. discriminate.
Qed.

Lemma Init_failure_keeps_partial_wiring_witness :
  let r := @Init spec_model model_conf (model_start controller_init_fails) in
  In (VehicleController_Init_step, false) (init_steps (calls r)) /\
  outcome r = Returned false /\
  (forall c, In c (calls r) -> is_start c = false /\ is_stop c = false).
Proof.
  assert (H : In (VehicleController_Init_step, false)
                (init_steps (calls (@Init spec_model model_conf
                                      (model_start controller_init_fails))))).
  { vm_compute. do 5 right. left. reflexivity. }
  split; [exact H | ].
  destruct (Init_failure_keeps_partial_wiring model_conf
              (model_start controller_init_fails)
              VehicleController_Init_step H)
    as (Ho & Hs & _).
  split; [exact Ho | exact Hs].
Defined.

Lemma Start_in_order_witness :
  let s := @mkState spec_model (self model_ready)
             (model_world sender_start_fails) in
  can_client_ (self s) = Some 1 /\
  outcome (@Start spec_model s) = Returned false /\
  calls (@Start spec_model s) =
    [@E_CanClient_Start spec_model 1 OK; E_CanReceiver_Start OK;
     E_CanSender_Start (NotOK 2000)].
Proof.
  intro s.
  assert (Hc : can_client_ (self s) = Some 1) by reflexivity.
  split; [exact Hc | ].
  destruct (@Start_in_order spec_model s 1 Hc) as (_ & _ & _ & H3 & _).
  destruct (H3 eq_refl eq_refl eq_refl) as (Ho & Hcalls & _).
  split; [exact Ho | exact Hcalls].
Defined.

Lemma UpdateCommand_flushes_only_on_success_witness :
  let s := @mkState spec_model (self model_ready) (model_world update_fails) in
  vehicle_controller_ (self s) = Some 3 /\
  outcome (@UpdateCommand_ControlCommand spec_model 9 s) = Returned tt /\
  outcome (@UpdateCommand_ChassisCommand spec_model 9 s) = Returned tt.
Proof.
  cbv zeta.
  assert (Hv : vehicle_controller_ (self model_ready) = Some 3)
    by reflexivity.
  split; [exact Hv | ].
  destruct (@UpdateCommand_flushes_only_on_success spec_model
              (@mkState spec_model (self model_ready)
                 (model_world update_fails)) 3 Hv) as (H1 & H2).
  split; [exact (proj1 (H1 9)) | exact (proj1 (H2 9))].
Defined.

(** C4, as stated, fails: [Stop] is not safe on a factory that [Init] has
    left half wired.  With a receiver whose Init reports an error, [Init]
    returns false with a client and no vehicle controller; [Start] then
    returns false (the client does not start); and [Stop] stops the sender,
    the receiver and the client and goes through the null
    [vehicle_controller_], which it never stops.  On a factory that was
    never initialised it goes through the null [can_client_]. *)
Lemma Stop_faults_when_half_wired :
  let s0 := model_start receiver_init_and_client_start_fail in
  let r1 := @Init spec_model model_conf s0 in
  let r2 := @Start spec_model (final r1) in
  let r3 := @Stop spec_model (final r2) in
  outcome r1 = Returned false /\
  outcome r2 = Returned false /\
  outcome r3 = NullDereference vehicle_controller_member /\
  outcome r3 <> Returned tt /\
  calls r3 =
    [@E_CanSender_Stop spec_model; E_CanReceiver_Stop;
     @E_CanClient_Stop spec_model 1] /\
  outcome (@Stop spec_model s0) = NullDereference can_client_member.
Proof.
  vm_compute. repeat split. discriminate.
Qed.

Lemma Stop_in_order_and_repeatable_witness :
  can_client_ (self model_ready) = Some 1 /\
  vehicle_controller_ (self model_ready) = Some 3 /\
  outcome (@Stop spec_model (final (@Stop spec_model model_ready))) =
    Returned tt /\
  can_client_ (self (model_start all_succeed)) = None /\
  outcome (@Stop spec_model (model_start all_succeed)) =
    NullDereference can_client_member.
Proof.
  assert (Hc : can_client_ (self model_ready) = Some 1) by reflexivity.
  assert (Hv : vehicle_controller_ (self model_ready) = Some 3)
    by reflexivity.
  assert (Hn : can_client_ (self (model_start all_succeed)) = None)
    by reflexivity.
  split; [exact Hc | split; [exact Hv | ]].
  split.
  - exact (proj1 (proj1 (proj2
             (proj1 (@Stop_in_order_and_repeatable spec_model model_ready)
                1 3 Hc Hv)))).
  - split; [exact Hn | ].
    exact (proj1 (proj1 (proj2 (@Stop_in_order_and_repeatable spec_model
                                  (model_start all_succeed))) Hn)).
Defined.

(** C6, as stated, fails: on a factory that was never initialised, [Start]
    does not return false; it goes through the null [can_client_]. *)
Lemma Start_before_Init_does_not_return_false :
  let s := model_start all_succeed in
  can_client_ (self s) = None /\
  vehicle_controller_ (self s) = None /\
  outcome (@Start spec_model s) = NullDereference can_client_member /\
  outcome (@Start spec_model s) <> Returned false.
Proof.
  cbv zeta. repeat split. vm_compute. discriminate.
Qed.

Lemma Start_on_null_client_faults_witness :
  let s := @mkState spec_model (self model_ready)
             (model_world sender_start_fails) in
  can_client_ (self (model_start all_succeed)) = None /\
  outcome (@Start spec_model (model_start all_succeed)) =
    NullDereference can_client_member /\
  outcome (@Start spec_model s) = Returned false /\
  exists client : nat, can_client_ (self s) = Some client.
Proof.
  intro s.
  assert (Hc : can_client_ (self (model_start all_succeed)) = None)
    by reflexivity.
  assert (Hf : outcome (@Start spec_model s) = Returned false)
    by (vm_compute; reflexivity).
  split; [exact Hc | ].
  split.
  - exact (proj1 (proj1 (@Start_on_null_client_faults spec_model
                           (model_start all_succeed)) Hc)).
  - split; [exact Hf | ].
    destruct (proj2 (@Start_on_null_client_faults spec_model s) Hf)
      as (client & Hclient & _).
    exists client. exact Hclient.
Defined.

Lemma Publish_channels_do_not_cross_witness :
  let f := self (final (@Init spec_model model_conf
                          (model_start all_succeed))) in
  outcome (@Init spec_model model_conf (model_start all_succeed)) =
    Returned true /\
  exists controller : nat,
    vehicle_controller_ f = Some controller /\
    writes (calls (@PublishChassisDetail spec_model
                     (@mkState spec_model f (model_world all_succeed)))) =
      [("/apollo/canbus/chassis_detail", 11)] /\
    writes (calls (@PublishChassisDetailSender spec_model
                     (@mkState spec_model f model_world_later))) =
      [("/apollo/canbus/chassis_detail_sender", 23)].
Proof.
  intro f.
  assert (Hi : outcome (@Init spec_model model_conf
                          (model_start all_succeed)) = Returned true)
    by (vm_compute; reflexivity).
  split; [exact Hi | ].
  destruct (@Publish_channels_do_not_cross spec_model model_conf
              (model_start all_succeed) (model_world all_succeed)
              model_world_later Hi)
    as (controller & Hv & _ & _ & _ & _ & _ & _ & H1 & H2 & _).
  exists controller. split; [exact Hv | ].
  split; [exact H1 | exact H2].
Defined.

Lemma protocol_set_clear_then_add_witness :
  send_messages (world (model_start all_succeed)) = [] /\
  reachable (model_start all_succeed) model_populated /\
  vehicle_controller_ (self model_populated) = Some 3 /\
  outcome (@IsSendProtocolClear spec_model model_populated) =
    Returned false /\
  outcome (@IsSendProtocolClear spec_model
             (final (@AddSendProtocol spec_model
                       (final (@ClearSendProtocol spec_model
                                 model_populated))))) = Returned false.
Proof.
  assert (H0 : send_messages (world (model_start all_succeed)) = [])
    by reflexivity.
  assert (Hr : reachable (model_start all_succeed) model_populated).
  { unfold model_populated.
    apply (@reachable_call spec_model (model_start all_succeed)
             F_AddSendProtocol model_ready).
    - unfold model_ready.
      apply (@reachable_call spec_model (model_start all_succeed)
               (F_Init model_conf) (model_start all_succeed)).
      + apply reachable_here.
      + exists tt. vm_compute. reflexivity.
    - exists tt. vm_compute. reflexivity. }
  assert (Hv : vehicle_controller_ (self model_populated) = Some 3)
    by reflexivity.
  assert (Hp : outcome (@IsSendProtocolClear spec_model model_populated) =
               Returned false) by reflexivity.
  repeat (split; [assumption | ]).
  exact (proj2 (proj2 protocol_set_clear_then_add
                  (model_start all_succeed) model_populated 3 H0 Hr Hv Hp)).
Defined.

Lemma CheckChassisCommunicationFault_observes_witness :
  vehicle_controller_ (self model_ready) = Some 3 /\
  outcome (@CheckChassisCommunicationFault spec_model model_ready) =
    Returned false /\
  final (@CheckChassisCommunicationFault spec_model model_ready) =
    model_ready.
Proof.
  assert (Hv : vehicle_controller_ (self model_ready) = Some 3)
    by reflexivity.
  split; [exact Hv | ].
  exact (proj2 CheckChassisCommunicationFault_observes model_ready 3 Hv).
Defined.

(** * More properties of the factory

    What the methods do to the members, when they go through a null
    pointer, which collaborator calls each of them can make, and what they
    log. *)

(** Case analysis on a pointer member that the goal dispatches on. *)
Ltac case_member :=
  match goal with
  | |- context [match ?field (self ?s) with _ => _ end] =>
      let E := fresh "M" in
      destruct (field (self s)) eqn:E; cbn
  end.

Ltac run_method := repeat first [case_member | next_call].

Section FactoryFrame.

Context {C : Collaborators}.

(** Sequencing after a method that has returned. *)
Lemma bind_after_return {A B} (m : M A) (k : A -> M B) (s : State) (a : A) :
  outcome (m s) = Returned a ->
  outcome (bind m k s) = outcome (k a (final (m s))) /\
  final (bind m k s) = final (k a (final (m s))).
Proof.
  unfold bind. destruct (m s) as [o s1 c1 l1]. cbn. intros ->.
  destruct (k a s1). cbn. split; reflexivity.
Qed.

(** A method other than [Init] leaves the members as they were, whether it
    returns or faults. *)
Lemma method_keeps_members (f : Facade) (s : State) :
  is_Init f = false ->
  self (final (invoke f s)) = self s.
Proof.
  destruct f; cbn [is_Init]; intro H; try discriminate H;
    unfold invoke; expose; run_method; reflexivity.
Qed.

Lemma final_bind {A B} (m : M A) (k : A -> M B) (s : State) :
  final (bind m k s) =
    match outcome (m s) with
    | Returned a => final (k a (final (m s)))
    | NullDereference _ => final (m s)
    end.
Proof.
  unfold bind. destruct (m s) as [[a | p] s1 c1 l1]; cbn.
  - destruct (k a s1). reflexivity.
  - reflexivity.
Qed.

(** X1.  [Init] is the only method that writes a member: after any
    sequence of calls of the other methods, in any state and whether or not
    one of them faults on the way, all six pointer members are as they were
    at the start. *)
Theorem only_Init_writes_members (l : list Facade) (s : State) :
  forallb (fun f => negb (is_Init f)) l = true ->
  self (final (invoke_all l s)) = self s.
Proof.
  revert s. induction l as [ | f l IH]; intros s Hl.
  - reflexivity.
  - cbn in Hl. apply andb_prop in Hl. destruct Hl as [Hf Hl].
    apply Bool.negb_true_iff in Hf.
    cbn [invoke_all]. rewrite final_bind.
    destruct (outcome (invoke f s)).
    + rewrite (IH _ Hl). apply method_keeps_members. exact Hf.
    + apply method_keeps_members. exact Hf.
Qed.

Lemma Init_true_is_wired (canbus_conf : CanbusConf) (s : State) :
  outcome (Init canbus_conf s) = Returned true ->
  wired (self (final (Init canbus_conf s))) = true.
Proof.
  expose. all_calls; intro H; try discriminate H. reflexivity.
Qed.

Lemma wired_method_returns (f : Facade) (s : State) :
  wired (self s) = true ->
  is_Init f = false ->
  outcome (invoke f s) = Returned tt.
Proof.
  destruct s as [[cl mm vc nd w1 w2] w]. unfold wired. cbn.
  destruct cl, vc, w1, w2; cbn; intro Hw; try discriminate Hw.
  destruct f; cbn [is_Init]; intro H; try discriminate H;
    unfold invoke; expose; all_calls; reflexivity.
Qed.

Lemma wired_sequence_returns (l : list Facade) (s : State) :
  wired (self s) = true ->
  forallb (fun f => negb (is_Init f)) l = true ->
  outcome (invoke_all l s) = Returned tt /\
  self (final (invoke_all l s)) = self s.
Proof.
  revert s. induction l as [ | f l IH]; intros s Hw Hl.
  - split; reflexivity.
  - cbn in Hl. apply andb_prop in Hl. destruct Hl as [Hf Hl].
    apply Bool.negb_true_iff in Hf.
    pose proof (wired_method_returns f s Hw Hf) as Hret.
    pose proof (method_keeps_members f s Hf) as Hself.
    cbn [invoke_all].
    destruct (bind_after_return (invoke f) (fun _ => invoke_all l) s Hret)
      as [Ho Hfin].
    rewrite Ho, Hfin.
    assert (Hw' : wired (self (final (invoke f s))) = true)
      by (rewrite Hself; exact Hw).
    destruct (IH _ Hw' Hl) as [Ho' Hs'].
    split; [exact Ho' | rewrite Hs'; exact Hself].
Qed.

(** X2.  After an [Init] that returned true, no sequence of calls of the
    other methods ever goes through a null pointer: every call returns, in
    whatever order the methods are called and whatever the collaborators
    answer. *)
Theorem no_fault_after_successful_Init
    (canbus_conf : CanbusConf) (s0 : State) (l : list Facade) :
  outcome (Init canbus_conf s0) = Returned true ->
  forallb (fun f => negb (is_Init f)) l = true ->
  outcome (invoke_all l (final (Init canbus_conf s0))) = Returned tt.
Proof.
  intros Hinit Hl.
  apply (wired_sequence_returns l (final (Init canbus_conf s0))).
  - apply Init_true_is_wired. exact Hinit.
  - exact Hl.
Qed.


(** X5.  [Init] assigns [can_client_] before it tests it: when the client
    factory yields no client, [Init] returns false with [can_client_] null,
    also on a factory that had a client before, and with every other member
    as it was; [Start] and [Stop] then go through the null pointer. *)
Theorem Init_without_client_clears_can_client_
    (canbus_conf : CanbusConf) (s : State) :
  fst (CanClientFactory_CreateCANClient (can_card_parameter canbus_conf)
         (CanClientFactory_RegisterCanClients (world s))) = None ->
  outcome (Init canbus_conf s) = Returned false /\
  self (final (Init canbus_conf s)) =
    mkFactory None (message_manager_ (self s)) (vehicle_controller_ (self s))
      (node_ (self s)) (chassis_detail_writer_ (self s))
      (chassis_detail_sender_writer_ (self s)) /\
  outcome (Start (final (Init canbus_conf s))) =
    NullDereference can_client_member /\
  outcome (Stop (final (Init canbus_conf s))) =
    NullDereference can_client_member.
Proof.
  intro H. expose.
  destruct (CanClientFactory_CreateCANClient (can_card_parameter canbus_conf)
              (CanClientFactory_RegisterCanClients (world s)))
    as [r w] eqn:E.
  cbn in H. subst r. cbn. repeat split; reflexivity.
Qed.

(** X6.  [Stop] stops the sender and the receiver before it looks at any
    pointer.  With [can_client_] null it faults right after these two
    stops; with a client but [vehicle_controller_] null it also stops the
    client and faults then.  In both cases the closing line is not
    logged. *)
Theorem Stop_on_null_pointers (s : State) :
  (can_client_ (self s) = None ->
   outcome (Stop s) = NullDereference can_client_member /\
   calls (Stop s) = [E_CanSender_Stop; E_CanReceiver_Stop] /\
   logs (Stop s) = []) /\
  (forall client,
     can_client_ (self s) = Some client ->
     vehicle_controller_ (self s) = None ->
     outcome (Stop s) = NullDereference vehicle_controller_member /\
     calls (Stop s) =
       [E_CanSender_Stop; E_CanReceiver_Stop; E_CanClient_Stop client] /\
     logs (Stop s) = []).
Proof.
  split.
  - intro Hc. expose. rewrite Hc. cbn. repeat split; reflexivity.
  - intros client Hc Hv. expose. rewrite Hc. cbn. rewrite Hv. cbn.
    repeat split; reflexivity.
Qed.


(** X8.  Which pointers each method needs.  The three methods that only
    use the sender return in every state.  The methods that go through the
    controller return exactly when [vehicle_controller_] is set; the two
    publishing methods need their writer as well, and [Stop] needs the
    client and the controller. *)
Theorem methods_return_exactly_when_pointers_set (s : State) :
  returned (UpdateHeartbeat s) /\
  returned (ClearSendProtocol s) /\
  returned (IsSendProtocolClear s) /\
  (forall c, returned (UpdateCommand_ControlCommand c s) <->
             vehicle_controller_ (self s) <> None) /\
  (forall c, returned (UpdateCommand_ChassisCommand c s) <->
             vehicle_controller_ (self s) <> None) /\
  (returned (publish_chassis s) <-> vehicle_controller_ (self s) <> None) /\
  (returned (CheckChassisCommunicationFault s) <->
     vehicle_controller_ (self s) <> None) /\
  (returned (AddSendProtocol s) <-> vehicle_controller_ (self s) <> None) /\
  (returned (Driving_Mode s) <-> vehicle_controller_ (self s) <> None) /\
  (returned (PublishChassisDetail s) <->
     vehicle_controller_ (self s) <> None /\
     chassis_detail_writer_ (self s) <> None) /\
  (returned (PublishChassisDetailSender s) <->
     vehicle_controller_ (self s) <> None /\
     chassis_detail_sender_writer_ (self s) <> None) /\
  (returned (Stop s) <->
     can_client_ (self s) <> None /\ vehicle_controller_ (self s) <> None).
Proof.
  unfold returned.
  repeat match goal with
         | |- _ /\ _ => split
         | |- forall _, _ => intro
         end;
    expose; run_method;
    try (eexists; reflexivity);
    (split;
     [ intros [a Ha]; try discriminate Ha;
       try split; discriminate
     | intro H;
       try (eexists; reflexivity);
       try (exfalso; apply H; reflexivity);
       try (exfalso; apply (proj1 H); reflexivity);
       try (exfalso; apply (proj2 H); reflexivity) ]).
Qed.


(** X10.  [Init] logs exactly one line for each fallible step it makes, in
    the order of the steps: an INFO line for a step that succeeded and an
    ERROR line for the one that failed.  So it returns false exactly when
    it has logged one ERROR line, and true exactly when it has logged
    none. *)
Theorem Init_logs_one_line_per_step (canbus_conf : CanbusConf) (s : State) :
  map fst (logs (Init canbus_conf s)) =
    map severity_of_step (init_steps (calls (Init canbus_conf s))) /\
  (outcome (Init canbus_conf s) = Returned false <->
   errors (logs (Init canbus_conf s)) = 1) /\
  (outcome (Init canbus_conf s) = Returned true <->
   errors (logs (Init canbus_conf s)) = 0).
Proof.
  expose. all_calls; repeat split; intro H; try discriminate H; reflexivity.
Qed.

(** X11.  [Start] logs one ERROR line when it returns false and none when
    it returns true or faults. *)
Theorem Start_logs_its_failure (s : State) :
  errors (logs (Start s)) =
    match outcome (Start s) with
    | Returned false => 1
    | _ => 0
    end.
Proof.
  expose. run_method; reflexivity.
Qed.

(** X12.  On a factory whose vehicle controller is set, a command handed to
    either [UpdateCommand] is either flushed to the sender once or reported
    with one ERROR line, never both and never neither. *)
Theorem UpdateCommand_flushes_or_reports (s : State) :
  vehicle_controller_ (self s) <> None ->
  (forall c,
     flushes (calls (UpdateCommand_ControlCommand c s)) +
     errors (logs (UpdateCommand_ControlCommand c s)) = 1) /\
  (forall c,
     flushes (calls (UpdateCommand_ChassisCommand c s)) +
     errors (logs (UpdateCommand_ChassisCommand c s)) = 1).
Proof.
  intro Hv. split; intro c; expose; run_method;
    try reflexivity; exfalso; apply Hv; reflexivity.
Qed.

(** X13.  A publishing method asks the controller for the detail before it
    looks at its writer: with the controller set and the writer null (as
    after an [Init] that failed at the controller's Init), the detail is
    fetched, nothing is written, and the method faults at the writer. *)
Theorem publish_without_writer (s : State) (controller : VehicleController) :
  vehicle_controller_ (self s) = Some controller ->
  (chassis_detail_writer_ (self s) = None ->
   outcome (PublishChassisDetail s) =
     NullDereference chassis_detail_writer_member /\
   calls (PublishChassisDetail s) =
     [E_GetNewRecvChassisDetail controller
        (fst (VehicleController_GetNewRecvChassisDetail controller
                (world s)))]) /\
  (chassis_detail_sender_writer_ (self s) = None ->
   outcome (PublishChassisDetailSender s) =
     NullDereference chassis_detail_sender_writer_member /\
   calls (PublishChassisDetailSender s) =
     [E_GetNewSenderChassisDetail controller
        (fst (VehicleController_GetNewSenderChassisDetail controller
                (world s)))]).
Proof.
  intro Hv. split; intro Hw; expose; rewrite Hv; cbn; rewrite Hw; cbn;
    split; reflexivity.
Qed.

End FactoryFrame.

(** ** These properties at concrete inputs *)

Lemma only_Init_writes_members_witness :
  forallb (fun f => negb (@is_Init spec_model f))
    [F_Start; F_AddSendProtocol; F_Stop] = true /\
  self (final (@invoke_all spec_model [F_Start; F_AddSendProtocol; F_Stop]
                 model_ready)) = self model_ready.
Proof.
  assert (H : forallb (fun f => negb (@is_Init spec_model f))
                [F_Start; F_AddSendProtocol; F_Stop] = true) by reflexivity.
  split; [exact H | ].
  exact (@only_Init_writes_members spec_model
           [F_Start; F_AddSendProtocol; F_Stop] model_ready H).
Defined.

Lemma no_fault_after_successful_Init_witness :
  let l := [@F_Start spec_model;
            @F_UpdateCommand_ControlCommand spec_model 9;
            F_PublishChassisDetail; F_PublishChassisDetailSender;
            F_CheckChassisCommunicationFault; F_Stop; F_Stop] in
  outcome (@Init spec_model model_conf (model_start all_succeed)) =
    Returned true /\
  forallb (fun f => negb (is_Init f)) l = true /\
  outcome (invoke_all l
             (final (@Init spec_model model_conf (model_start all_succeed)))) =
    Returned tt.
Proof.
  intro l.
  assert (Hi : outcome (@Init spec_model model_conf
                          (model_start all_succeed)) = Returned true)
    by (vm_compute; reflexivity).
  assert (Hl : forallb (fun f => negb (is_Init f)) l = true) by reflexivity.
  split; [exact Hi | split; [exact Hl | ]].
  exact (@no_fault_after_successful_Init spec_model model_conf
           (model_start all_succeed) l Hi Hl).
Defined.


Lemma Init_without_client_clears_can_client__witness :
  let s := @mkState spec_model
             (@mkFactory spec_model (Some 1) (Some 2) (Some 3) None None None)
             (model_world client_creation_fails) in
  can_client_ (self s) = Some 1 /\
  fst (@CanClientFactory_CreateCANClient spec_model
         (can_card_parameter model_conf)
         (@CanClientFactory_RegisterCanClients spec_model (world s))) = None /\
  can_client_ (self (final (@Init spec_model model_conf s))) = None /\
  outcome (@Stop spec_model (final (@Init spec_model model_conf s))) =
    NullDereference can_client_member.
Proof.
  intro s.
  assert (H : fst (@CanClientFactory_CreateCANClient spec_model
                     (can_card_parameter model_conf)
                     (@CanClientFactory_RegisterCanClients spec_model
                        (world s))) = None) by reflexivity.
  split; [reflexivity | split; [exact H | ]].
  destruct (@Init_without_client_clears_can_client_ spec_model model_conf s H)
    as (_ & Hs & _ & Hstop).
  split; [rewrite Hs; reflexivity | exact Hstop].
Defined.

Lemma Stop_on_null_pointers_witness :
  can_client_ (self (model_start all_succeed)) = None /\
  calls (@Stop spec_model (model_start all_succeed)) =
    [@E_CanSender_Stop spec_model; E_CanReceiver_Stop].
Proof.
  assert (Hc : can_client_ (self (model_start all_succeed)) = None)
    by reflexivity.
  split; [exact Hc | ].
  exact (proj1 (proj2 (proj1 (@Stop_on_null_pointers spec_model
                                (model_start all_succeed)) Hc))).
Defined.


Lemma UpdateCommand_flushes_or_reports_witness :
  let s := @mkState spec_model
             (@mkFactory spec_model (Some 1) (Some 2) (Some 3) None None None)
             (model_world update_fails) in
  vehicle_controller_ (self s) <> None /\
  flushes (calls (@UpdateCommand_ControlCommand spec_model 9 s)) +
  errors (logs (@UpdateCommand_ControlCommand spec_model 9 s)) = 1.
Proof.
  intro s.
  assert (Hv : vehicle_controller_ (self s) <> None) by (cbn; discriminate).
  split; [exact Hv | ].
  exact (proj1 (@UpdateCommand_flushes_or_reports spec_model s Hv) 9).
Defined.

Lemma publish_without_writer_witness :
  let s := @mkState spec_model
             (@mkFactory spec_model (Some 1) (Some 2) (Some 3) None None None)
             (model_world controller_init_fails) in
  vehicle_controller_ (self s) = Some 3 /\
  chassis_detail_writer_ (self s) = None /\
  outcome (@PublishChassisDetail spec_model s) =
    NullDereference chassis_detail_writer_member.
Proof.
  intro s.
  assert (Hv : vehicle_controller_ (self s) = Some 3) by reflexivity.
  assert (Hw : chassis_detail_writer_ (self s) = None) by reflexivity.
  split; [exact Hv | split; [exact Hw | ]].
  exact (proj1 (proj1 (@publish_without_writer spec_model s 3 Hv) Hw)).
Defined.
